(** * Quiz response parser: [QuizGenerator.parse_quiz] of quiz_generator.py

    A shallow embedding of [parse_quiz] and [_is_valid_question], with the
    Python string methods they call, and the properties of the parser;
    then of [generate_quiz], which calls the parser, and of the quiz
    session of main.py, which reads its records.

    Modelling conventions.
    - A Python [str] is a [string]; its characters are read as code points
      below 256, and [isspace] and [lower] are Python's on that range.
    - A question dict is a [gmap string value]: the keys are the dict's
      keys, a value is a [str] or a list of [str].
    - A Python exception is the [Raise] result of the [result] monad. *)

From Stdlib Require Import Ascii String List Arith Lia.
From stdpp Require Import gmap strings list fin_maps.

Local Open Scope string_scope.

(** ** Exceptions and results *)

Inductive exn : Type :=
| KeyError (key : string)
| IndexError
| AttributeError.

Inductive result (A : Type) : Type :=
| Ok (a : A)
| Raise (e : exn).

Arguments Ok {A} a.
Arguments Raise {A} e.

Definition bind {A B : Type} (r : result A) (k : A → result B) : result B :=
  match r with
  | Ok a => k a
  | Raise e => Raise e
  end.

Notation "x ←! r ; k" := (bind r (λ x, k))
  (at level 100, r at next level, right associativity,
   format "x  ←!  r ;  '/' k").

Definition raises {A : Type} (r : result A) : Prop := ∃ e, r = Raise e.

(** ** Python string methods *)

Module Py.

(** [str.isspace] on one character. *)
Definition isspace (c : ascii) : bool :=
  let n := nat_of_ascii c in
  (((9 <=? n) && (n <=? 13)) || ((28 <=? n) && (n <=? 32))
   || (n =? 133) || (n =? 160))%nat.

(** [str.lower] on one character. *)
Definition lower_char (c : ascii) : ascii :=
  let n := nat_of_ascii c in
  if (((65 <=? n) && (n <=? 90))
      || ((192 <=? n) && (n <=? 222) && negb (n =? 215)))%nat
  then ascii_of_nat (n + 32) else c.

(** [s.lower()] *)
Fixpoint lower (s : string) : string :=
  match s with
  | EmptyString => EmptyString
  | String c s' => String (lower_char c) (lower s')
  end.

(** [s.lstrip()] *)
Fixpoint lstrip (s : string) : string :=
  match s with
  | EmptyString => EmptyString
  | String c s' => if isspace c then lstrip s' else s
  end.

(** [s.rstrip()] *)
Fixpoint rstrip (s : string) : string :=
  match s with
  | EmptyString => EmptyString
  | String c s' =>
      match rstrip s' with
      | EmptyString => if isspace c then EmptyString else String c EmptyString
      | r => String c r
      end
  end.

(** [s.strip()] *)
Definition strip (s : string) : string := rstrip (lstrip s).

(** [s.startswith(p)] *)
Fixpoint startswith (s p : string) : bool :=
  match p, s with
  | EmptyString, _ => true
  | String _ _, EmptyString => false
  | String a p', String b s' => if Ascii.eqb a b then startswith s' p' else false
  end.

(** [s.startswith((p1, ..., pn))] *)
Definition startswith_any (s : string) (ps : list string) : bool :=
  existsb (startswith s) ps.

(** [s.split(sep, maxsplit)] for a separator of one character; [None]
    is the absent [maxsplit]. *)
Fixpoint split (sep : ascii) (maxsplit : option nat) (s : string) : list string :=
  match s with
  | EmptyString => [EmptyString]
  | String c s' =>
      match maxsplit with
      | Some 0 => [s]
      | _ =>
          if Ascii.eqb c sep
          then EmptyString :: split sep (Nat.pred <$> maxsplit) s'
          else match split sep maxsplit s' with
               | [] => [String c EmptyString]
               | w :: ws => String c w :: ws
               end
      end
  end.

(** [l[-1]] *)
Definition last_item {A : Type} (l : list A) : result A :=
  match last l with
  | Some x => Ok x
  | None => Raise IndexError
  end.

(** [s[n:]] *)
Fixpoint slice_from (n : nat) (s : string) : string :=
  match n, s with
  | 0, _ => s
  | S _, EmptyString => EmptyString
  | S n', String _ s' => slice_from n' s'
  end.

(** [s[0]] *)
Definition item0 (s : string) : result string :=
  match s with
  | EmptyString => Raise IndexError
  | String c _ => Ok (String c EmptyString)
  end.

(** [bool(s)] *)
Definition truthy (s : string) : bool :=
  match s with
  | EmptyString => false
  | String _ _ => true
  end.

End Py.

(** ** Question dicts *)

Inductive value : Type :=
| VStr (s : string)
| VList (l : list string).

#[global] Instance value_eq_dec : EqDecision value.
Proof. solve_decision. Defined.

Abbreviation dict := (gmap string value).

(** [bool(d)] for a dict [d]. *)
Definition dict_truthy (d : dict) : bool := bool_decide (d ≠ ∅).

(** [len(v)] *)
Definition py_len (v : value) : nat :=
  match v with
  | VStr s => String.length s
  | VList l => length l
  end.

(** [bool(v)], where [None] is the Python [None]. *)
Definition py_bool (v : option value) : bool :=
  match v with
  | None => false
  | Some (VStr s) => Py.truthy s
  | Some (VList l) => match l with [] => false | _ :: _ => true end
  end.

(** [v in l], where [None] is the Python [None]. *)
Definition py_in (v : option value) (l : list value) : bool :=
  match v with
  | None => false
  | Some x => existsb (λ y, bool_decide (x = y)) l
  end.

(** ** The parser *)

(** [_is_valid_question] *)
Definition _is_valid_question (question : dict) : bool :=
  (py_len (default (VList []) (question !! "options")) =? 4)%nat
  && py_in (question !! "answer") [VStr "a"; VStr "b"; VStr "c"; VStr "d"]
  && py_bool (question !! "question").

(** The two variables of the loop of [parse_quiz]. *)
Record pstate : Type := PState {
  questions : list dict;
  current_q : dict
}.

(** The dict literal of line 89. *)
Definition blank_q : dict :=
  <["answer" := VStr ""]> (<["options" := VList []]> (<["question" := VStr ""]> ∅)).

(** One iteration of the loop of [parse_quiz] (lines 86 to 94). A dict
    that was appended to [questions] is never written again, as
    [current_q] is bound to a new dict right after. *)
Definition step (st : pstate) (line : string) : result pstate :=
  if Py.startswith (Py.lower line) "question" then
    let questions' :=
      if dict_truthy (current_q st)
      then (questions st ++ [current_q st])%list
      else questions st in
    text ←! Py.last_item (Py.split ":" (Some 1) line);
    Ok (PState questions' (<["question" := VStr (Py.strip text)]> blank_q))
  else if Py.startswith_any line ["A)"; "B)"; "C)"; "D)"] then
    match current_q st !! "options" with
    | None => Raise (KeyError "options")
    | Some (VList l) =>
        let l' := (l ++ [Py.strip (Py.slice_from 3 line)])%list in
        Ok (PState (questions st) (<["options" := VList l']> (current_q st)))
    | Some (VStr _) => Raise AttributeError
    end
  else if Py.startswith (Py.lower line) "answer:" then
    text ←! Py.last_item (Py.split ":" None line);
    letter ←! Py.item0 (Py.lower (Py.strip text));
    Ok (PState (questions st) (<["answer" := VStr letter]> (current_q st)))
  else Ok st.

(** The loop of [parse_quiz] over the remaining lines. *)
Fixpoint scan (st : pstate) (lines : list string) : result pstate :=
  match lines with
  | [] => Ok st
  | line :: rest => st' ←! step st line; scan st' rest
  end.

(** The list comprehension of line 82. *)
Definition clean_lines (response_text : string) : list string :=
  map Py.strip
    (List.filter (λ line, Py.truthy (Py.strip line))
       (Py.split "010" None response_text)).

(** [parse_quiz] *)
Definition parse_quiz (response_text : string) : result (list dict) :=
  st ←! scan (PState [] ∅) (clean_lines response_text);
  Ok (take 5 (List.filter _is_valid_question (questions st))).

(** The branch of the loop body that a line takes: the conditions of
    lines 86, 91 and 93, tested in that order. *)
Inductive kind : Type := KQuestion | KOption | KAnswer | KOther.

#[global] Instance kind_eq_dec : EqDecision kind.
Proof. solve_decision. Defined.

Definition classify (line : string) : kind :=
  if Py.startswith (Py.lower line) "question" then KQuestion
  else if Py.startswith_any line ["A)"; "B)"; "C)"; "D)"] then KOption
  else if Py.startswith (Py.lower line) "answer:" then KAnswer
  else KOther.

(** What line 88 leaves in [questions]. *)
Definition flush (st : pstate) : list dict :=
  if dict_truthy (current_q st)
  then (questions st ++ [current_q st])%list
  else questions st.

(** ** The records of the specification *)

(** The dict [{"question": q, "options": opts, "answer": a}]. *)
Definition mk_question (q : string) (opts : list string) (a : string) : dict :=
  <["answer" := VStr a]> (<["options" := VList opts]> (<["question" := VStr q]> ∅)).

(** A valid record in the words of the specification: exactly four
    options, a question that is not empty, an answer among a, b, c, d. *)
Definition valid_record (d : dict) : Prop :=
  ∃ (q : string) (opts : list string) (a : string),
    d !! "question" = Some (VStr q) ∧ q ≠ ""
    ∧ d !! "options" = Some (VList opts) ∧ length opts = 4
    ∧ d !! "answer" = Some (VStr a) ∧ a ∈ ["a"; "b"; "c"; "d"].

(** The values under the three keys have the types the parser gives
    them: a list under "options", a [str] under the other two. *)
Definition well_typed (d : dict) : Prop :=
  (∀ s, d !! "options" ≠ Some (VStr s))
  ∧ (∀ l, d !! "question" ≠ Some (VList l))
  ∧ (∀ l, d !! "answer" ≠ Some (VList l)).

Definition state_typed (st : pstate) : Prop :=
  Forall well_typed (questions st) ∧ well_typed (current_q st).

(** ** Blocks *)

(** The lines [b] are a block that, parsed on its own, leaves the record
    [r] open: a question line, then lines of the other kinds. *)
Definition block_of (b : list string) (r : dict) : Prop :=
  ∃ line body,
    b = line :: body
    ∧ classify line = KQuestion
    ∧ Forall (λ l, classify l ≠ KQuestion) body
    ∧ scan (PState [] ∅) b = Ok (PState [] r).

(** [c in s] *)
Fixpoint contains (c : ascii) (s : string) : bool :=
  match s with
  | EmptyString => false
  | String c' s' => Ascii.eqb c' c || contains c s'
  end.

(** A line that line 82 keeps as it is: trimmed, not empty, without a
    line break. *)
Definition clean_line (l : string) : Prop :=
  Py.strip l = l ∧ l ≠ "" ∧ contains "010" l = false.

(** ** Inputs *)

Definition nl : string := String "010" EmptyString.

(** The lines of a text, joined by line breaks. *)
Definition text (lines : list string) : string := String.concat nl lines.

(** A block in the format of the prompt (lines 39 to 44). *)
Definition block (n q o1 o2 o3 o4 a : string) : list string :=
  ["Question " ++ n ++ ": " ++ q;
   "A) " ++ o1; "B) " ++ o2; "C) " ++ o3; "D) " ++ o4;
   "Answer: " ++ a].

(** The block of the concrete scenario of the specification. *)
Definition spec_block : list string := block "1" "What is 2+2?" "3" "4" "5" "6" "B".

Definition spec_record : dict := mk_question "What is 2+2?" ["3"; "4"; "5"; "6"] "b".

(** Numbered blocks, and the records the specification gives them. *)
Definition numbered_block (n : string) : list string :=
  block n ("Item " ++ n ++ "?") "w" "x" "y" "z" "C".

Definition numbered_record (n : string) : dict :=
  mk_question ("Item " ++ n ++ "?") ["w"; "x"; "y"; "z"] "c".

(** The record that the question line of [spec_block] opens. *)
Definition open_q : dict := <["question" := VStr "What is 2+2?"]> blank_q.

(** [spec_block] with a second colon on its answer line. *)
Definition two_colon_block : list string :=
  block "1" "What is 2+2?" "3" "4" "5" "6" "B: correct".

(** [spec_block] with lower-case option markers. *)
Definition lowercase_block : list string :=
  ["Question 1: What is 2+2?"; "a) 3"; "b) 4"; "c) 5"; "d) 6"; "Answer: B"].

(** [spec_block] with no space after the option markers. *)
Definition tight_block : list string :=
  ["Question 1: What is 2+2?"; "A)3"; "B)4"; "C)5"; "D)6"; "Answer: B"].

(** A block whose four option lines carry the same marker. *)
Definition same_marker_block : list string :=
  ["Question 1: Pick one"; "A) w"; "A) x"; "A) y"; "A) z"; "Answer: a"].

Definition same_marker_record : dict :=
  mk_question "Pick one" ["w"; "x"; "y"; "z"] "a".


Definition five_blocks : string :=
  text (concat (map numbered_block ["1"; "2"; "3"; "4"; "5"])).

Definition seven_blocks : string :=
  text (concat (map numbered_block ["1"; "2"; "3"; "4"; "5"; "6"; "7"])).

(** ** [generate_quiz]

    The text splitter and the generative model are outside the
    repository: the splitter is a function from a text to its chunks, and
    the model gives, for a prompt and the number of the attempt, what the
    call of [generate_content] followed by [response.text] gives. *)

(** [str(e)] for the exceptions of [parse_quiz] (a [KeyError] shows its
    key quoted). *)
Definition exn_str (e : exn) : string :=
  match e with
  | KeyError key => "'" ++ key ++ "'"
  | IndexError => "string index out of range"
  | AttributeError => "'str' object has no attribute 'append'"
  end.

(** [sub in s] *)
Fixpoint str_in (sub s : string) : bool :=
  Py.startswith s sub
  || match s with
     | EmptyString => false
     | String _ s' => str_in sub s'
     end.

(** One call of the model: the text of the response, or the [str] of the
    exception it raised. *)
Inductive reply : Type :=
| Reply (response_text : string)
| Failure (msg : string).

(** The fields that [__init__] sets and [generate_quiz] reads. *)
Record QuizGenerator : Type := {
  retry_delay : nat;
  max_retries : nat
}.

(** Lines 11 and 12. *)
Definition __init__ : QuizGenerator :=
  {| retry_delay := 5; max_retries := 3 |}.

(** What [generate_quiz] does to the outside: calls of the model and
    calls of [time.sleep]. *)
Inductive event : Type :=
| Generate (attempt : nat)
| Sleep (seconds : nat).

(** How [generate_quiz] ends: a returned value ([None] when the loop runs
    out), or the [RuntimeError] of line 66. *)
Inductive outcome : Type :=
| Returns (v : option (list dict))
| RuntimeError (msg : string).

(** The f-string of lines 34 to 46. *)
Definition quiz_prompt (context : string) : string :=
  let pad := "            " in
  "Generate 5 MCQ questions from this context:" ++ nl ++
  pad ++ context ++ nl ++
  pad ++ nl ++
  pad ++ "Follow this EXACT format:" ++ nl ++
  pad ++ nl ++
  pad ++ "Question 1: [question text]" ++ nl ++
  pad ++ "A) [option 1]" ++ nl ++
  pad ++ "B) [option 2]" ++ nl ++
  pad ++ "C) [option 3]" ++ nl ++
  pad ++ "D) [option 4]" ++ nl ++
  pad ++ "Answer: [letter]" ++ nl ++
  pad ++ nl ++
  pad ++ "[Repeat for Questions 2-5]".

(** The body of the inner [try] (lines 51 to 58): the parsed quiz, or the
    [str] of the exception that the [except] of line 59 catches. *)
Definition try_once (r : reply) : list dict + string :=
  match r with
  | Reply response_text =>
      match parse_quiz response_text with
      | Ok qs => inl qs
      | Raise e => inr (exn_str e)
      end
  | Failure msg => inr msg
  end.

(** The loop of lines 49 to 63, from the attempt [attempt] on, with
    [fuel] attempts left of [range(self.max_retries)]: the events, and the
    returned value or the [str] of the exception that leaves the loop. *)
Fixpoint attempts (self : QuizGenerator) (model : nat → reply)
    (fuel attempt : nat) : list event * (option (list dict) + string) :=
  match fuel with
  | 0 => ([], inl None)
  | S fuel' =>
      match try_once (model attempt) with
      | inl qs => ([Generate attempt], inl (Some qs))
      | inr msg =>
          if str_in "429" msg && (attempt <? max_retries self - 1)%nat
          then
            let '(evs, res) := attempts self model fuel' (S attempt) in
            (Generate attempt :: Sleep (retry_delay self * (attempt + 1)) :: evs,
             res)
          else ([Generate attempt], inr msg)
      end
  end.

(** [generate_quiz] *)
Definition generate_quiz (self : QuizGenerator)
    (split_text : string → list string) (model : string → nat → reply)
    (pdf_text : string) : list event * outcome :=
  let chunks := split_text pdf_text in
  let context := String.concat nl (take 3 chunks) in
  let prompt := quiz_prompt context in
  let '(evs, res) := attempts self (model prompt) (max_retries self) 0 in
  (evs,
   match res with
   | inl v => Returns v
   | inr msg => RuntimeError ("Quiz generation failed: " ++ msg)
   end).

(** The attempts before [k] all failed with a message of a rate limit. *)
Definition rate_limited_before (model : nat → reply) (k : nat) : Prop :=
  ∀ j, (j < k)%nat → ∃ msg, model j = Failure msg ∧ str_in "429" msg = true.

(** ** The lines on which [parse_quiz] returns *)

(** The text after the last colon of an answer line is not blank. *)
Definition answer_given (line : string) : bool :=
  match Py.last_item (Py.split ":" None line) with
  | Ok seg => Py.truthy (Py.lower (Py.strip seg))
  | Raise _ => false
  end.

(** No option line comes before the first question line, and no answer
    line is without an answer; [opened] tells that a question line was
    read. *)
Fixpoint safe_lines (opened : bool) (lines : list string) : bool :=
  match lines with
  | [] => true
  | line :: rest =>
      match classify line with
      | KQuestion => safe_lines true rest
      | KOption => opened && safe_lines opened rest
      | KAnswer => answer_given line && safe_lines opened rest
      | KOther => safe_lines opened rest
      end
  end.

(** The text that an option line appends (line 92). *)
Definition option_text (line : string) : string :=
  Py.strip (Py.slice_from 3 line).

(** The option lines among [lines]. *)
Definition option_lines (lines : list string) : list string :=
  List.filter (λ l, bool_decide (classify l = KOption)) lines.

(** The state of [current_q] that [opened] stands for. *)
Definition opened_as (opened : bool) (d : dict) : Prop :=
  if opened then ∃ l, d !! "options" = Some (VList l)
  else d !! "options" = None.

(** ** The quiz session of main.py

    The session code reads the records that [generate_quiz] returned.
    Streamlit is outside the repository: a run of the script gets from it
    the option picked in the radio widget, if any, and the button that was
    pressed, if any. *)

(** The exceptions of the session code: those of the parser, and two
    more. *)
Inductive py_exc : Type :=
| Exn (e : exn)
| TypeError
| ZeroDivisionError.

Definition ebind {A B : Type} (r : py_exc + A) (k : A → py_exc + B) : py_exc + B :=
  match r with
  | inl e => inl e
  | inr a => k a
  end.

Notation "x ←? r ; k" := (ebind r (λ x, k))
  (at level 100, r at next level, right associativity,
   format "x  ←?  r ;  '/' k").

(** [d[key]] *)
Definition getitem (d : dict) (key : string) : py_exc + value :=
  match d !! key with
  | Some v => inr v
  | None => inl (Exn (KeyError key))
  end.

(** The items of a value as a sequence: those of a list, the characters
    of a [str]. *)
Definition items (v : value) : list string :=
  match v with
  | VList l => l
  | VStr s => map (λ c, String c EmptyString) (list_ascii_of_string s)
  end.

(** [l[i]] for an integer [i]: a negative index counts from the end. *)
Definition py_index {A : Type} (l : list A) (i : Z) : py_exc + A :=
  let n := Z.of_nat (length l) in
  let j := (if i <? 0 then n + i else i)%Z in
  if ((0 <=? j) && (j <? n))%Z
  then match l !! Z.to_nat j with
       | Some x => inr x
       | None => inl (Exn IndexError)
       end
  else inl (Exn IndexError).

(** [ord(v)] *)
Definition ord (v : value) : py_exc + Z :=
  match v with
  | VStr (String c EmptyString) => inr (Z.of_nat (nat_of_ascii c))
  | _ => inl TypeError
  end.

(** [q['options'][ord(q['answer'])-97]] of line 234. *)
Definition correct_option (q : dict) : py_exc + string :=
  opts ←? getitem q "options";
  a ←? getitem q "answer";
  code ←? ord a;
  py_index (items opts) (code - 97).

(** The sum of lines 224 to 226. *)
Fixpoint score (user_answers : list string) (quiz : list dict) : py_exc + nat :=
  match user_answers, quiz with
  | ans :: user_answers', q :: quiz' =>
      a ←? getitem q "answer";
      n ←? score user_answers' quiz';
      inr (if bool_decide (VStr ans = a) then S n else n)
  | _, _ => inr 0%nat
  end.

(** A row of the review (lines 233 to 235): the question, the correct
    option, the answer of the user. *)
Record row : Type := Row {
  row_question : value;
  row_correct : string;
  row_answer : string
}.

(** The loop of lines 231 to 236. *)
Fixpoint review (user_answers : list string) (quiz : list dict) : py_exc + list row :=
  match user_answers, quiz with
  | ans :: user_answers', q :: quiz' =>
      question ←? getitem q "question";
      option ←? correct_option q;
      rows ←? review user_answers' quiz';
      inr (Row question option (if Py.truthy ans then ans else "None") :: rows)
  | _, _ => inr []
  end.

(** What [_show_results] displays: the score, the number of questions
    (the fraction of line 228 is their quotient), the review. *)
Record results : Type := Results {
  correct : nat;
  total : nat;
  rows : list row
}.

(** [_show_results] *)
Definition _show_results (user_answers : list string) (quiz : list dict) :
    py_exc + results :=
  correct ←? score user_answers quiz;
  if (length quiz =? 0)%nat then inl ZeroDivisionError
  else
    rows ←? review user_answers quiz;
    inr (Results correct (length quiz) rows).

(** [st.session_state.quiz] *)
Record session : Type := Session {
  quiz : option (list dict);
  current_question : Z;
  user_answers : list string
}.

(** Line 31. *)
Definition initial_session : session := Session None 0 [].

Inductive button : Type := NextButton | PreviousButton | NoButton.

#[global] Instance button_eq_dec : EqDecision button.
Proof. solve_decision. Defined.

(** What a run of the script gets from outside: the outcome of
    [generate_quiz] when "Generate Quiz" was pressed, or else the index of
    the option picked in the radio widget and one of the two buttons. *)
Inductive action : Type :=
| GenerateQuiz (o : outcome)
| Click (picked : option nat) (b : button).

(** [_handle_quiz]: the session after the run. The "Next" button is
    disabled unless an option is selected and not empty; a run that
    changes the session ends at once, with [st.rerun()]. *)
Definition _handle_quiz (s : session) (qs : list dict)
    (picked : option nat) (b : button) : py_exc + session :=
  let current := current_question s in
  let total := Z.of_nat (length qs) in
  if (current <? total)%Z then
    question ←? py_index qs current;
    label ←? getitem question "question";
    options ←? getitem question "options";
    let selected := default "" (picked ≫= (λ i, items options !! i)) in
    if bool_decide (b = NextButton) && Py.truthy selected
    then inr (Session (quiz s) (current + 1) (user_answers s ++ [selected])%list)
    else if (0 <? current)%Z && bool_decide (b = PreviousButton)
    then inr (Session (quiz s) (current - 1) (user_answers s))
    else inr s
  else
    _ ←? _show_results (user_answers s) qs;
    inr s.

(** [bool(v)] for the quiz of the session. *)
Definition quiz_truthy (v : option (list dict)) : bool :=
  match v with
  | Some (_ :: _) => true
  | _ => false
  end.

(** [_quiz_flow], for a run with an uploaded file. *)
Definition _quiz_flow (s : session) (a : action) : py_exc + session :=
  let '(s1, picked, b) :=
    match a with
    | GenerateQuiz (Returns v) => (Session v 0 [], None, NoButton)
    | GenerateQuiz (RuntimeError _) => (s, None, NoButton)
    | Click picked b => (s, picked, b)
    end in
  if quiz_truthy (quiz s1)
  then _handle_quiz s1 (default [] (quiz s1)) picked b
  else inr s1.

(** The runs of the script, one after the other. *)
Fixpoint runs (s : session) (actions : list action) : py_exc + session :=
  match actions with
  | [] => inr s
  | a :: rest => s' ←? _quiz_flow s a; runs s' rest
  end.

(** The quizzes that the actions bring are made of valid records. *)
Definition valid_action (a : action) : Prop :=
  match a with
  | GenerateQuiz (Returns (Some qs)) => Forall valid_record qs
  | _ => True
  end.

(** The session invariant: the number of the current question is within
    the quiz, and no question before it is without an answer. *)
Definition session_ok (s : session) : Prop :=
  match quiz s with
  | Some qs =>
      Forall valid_record qs
      ∧ (0 ≤ current_question s ≤ Z.of_nat (length qs))%Z
      ∧ (current_question s ≤ Z.of_nat (length (user_answers s)))%Z
      ∧ Forall (λ ans, ans ≠ "") (user_answers s)
  | None => True
  end.

(** ** The result monad *)

Lemma bind_ok_inv {A B : Type} (r : result A) (k : A → result B) (b : B) :
  bind r k = Ok b → ∃ a, r = Ok a ∧ k a = Ok b.
Proof. destruct r as [a|e]; simpl; [eauto | discriminate]. Qed.

(** ** Facts on the string methods *)

Lemma split_not_nil (sep : ascii) (m : option nat) (s : string) :
  Py.split sep m s ≠ [].
Proof.
  revert m; induction s as [|c s IH]; intros m; simpl; [done|].
  destruct m as [[|n]|]; [done| |];
    (destruct (Ascii.eqb c sep); [done|]);
    match goal with |- context [Py.split sep ?m' s] =>
      destruct (Py.split sep m' s) end; done.
Qed.

(** Indexing the result of [split] with [-1] never raises. *)
Lemma last_item_split (sep : ascii) (m : option nat) (s : string) :
  ∃ seg, Py.last_item (Py.split sep m s) = Ok seg.
Proof.
  unfold Py.last_item.
  destruct (last (Py.split sep m s)) as [seg|] eqn:E; [eauto|].
  apply last_None in E. by apply split_not_nil in E.
Qed.

Lemma split_no_sep (sep : ascii) (s : string) :
  contains sep s = false → Py.split sep None s = [s].
Proof.
  induction s as [|c s IH]; simpl; [done|].
  intros [Hc Hs]%orb_false_iff. by rewrite Hc, (IH Hs).
Qed.

(** [(s + sep + t).split(sep)] is [s.split(sep) + t.split(sep)]. *)
Lemma split_app (sep : ascii) (s t : string) :
  Py.split sep None (s ++ String sep t)
  = (Py.split sep None s ++ Py.split sep None t)%list.
Proof.
  induction s as [|c s IH]; simpl.
  - by rewrite Ascii.eqb_refl.
  - destruct (Ascii.eqb c sep); rewrite IH; [done|].
    destruct (Py.split sep None s) as [|w ws] eqn:E;
      [by apply split_not_nil in E|done].
Qed.

(** ** The loop body, branch by branch *)

Lemma step_question (st : pstate) (line : string) :
  classify line = KQuestion →
  ∃ seg, Py.last_item (Py.split ":" (Some 1) line) = Ok seg
    ∧ step st line
      = Ok (PState (flush st) (<["question" := VStr (Py.strip seg)]> blank_q)).
Proof.
  unfold classify, step, flush. intros H.
  destruct (Py.startswith (Py.lower line) "question"); [|by repeat case_match].
  destruct (last_item_split ":" (Some 1) line) as [seg Hseg].
  exists seg. by rewrite Hseg.
Qed.

Lemma step_option (st : pstate) (line : string) :
  classify line = KOption →
  step st line =
    match current_q st !! "options" with
    | None => Raise (KeyError "options")
    | Some (VList l) =>
        Ok (PState (questions st)
              (<["options" := VList (l ++ [Py.strip (Py.slice_from 3 line)])]>
                 (current_q st)))
    | Some (VStr _) => Raise AttributeError
    end.
Proof.
  unfold classify, step. intros H.
  destruct (Py.startswith (Py.lower line) "question"); [done|].
  destruct (Py.startswith_any line _); [done|by repeat case_match].
Qed.

Lemma step_answer (st : pstate) (line : string) :
  classify line = KAnswer →
  ∃ seg, Py.last_item (Py.split ":" None line) = Ok seg
    ∧ step st line
      = (letter ←! Py.item0 (Py.lower (Py.strip seg));
         Ok (PState (questions st) (<["answer" := VStr letter]> (current_q st)))).
Proof.
  unfold classify, step. intros H.
  destruct (Py.startswith (Py.lower line) "question"); [done|].
  destruct (Py.startswith_any line _); [done|].
  destruct (Py.startswith (Py.lower line) "answer:"); [|done].
  destruct (last_item_split ":" None line) as [seg Hseg].
  exists seg. by rewrite Hseg.
Qed.

Lemma step_other (st : pstate) (line : string) :
  classify line = KOther → step st line = Ok st.
Proof.
  unfold classify, step. intros H.
  destruct (Py.startswith (Py.lower line) "question"); [done|].
  destruct (Py.startswith_any line _); [done|].
  by destruct (Py.startswith (Py.lower line) "answer:").
Qed.

(** Only a question line writes to [questions]. *)
Lemma step_keeps_questions (st st' : pstate) (line : string) :
  classify line ≠ KQuestion → step st line = Ok st' →
  questions st' = questions st.
Proof.
  intros Hk Hs. destruct (classify line) eqn:E; [done| | |].
  - rewrite (step_option _ _ E) in Hs.
    destruct (current_q st !! "options") as [[?|?]|]; by simplify_eq.
  - destruct (step_answer st _ E) as (seg & _ & Heq). rewrite Heq in Hs.
    apply bind_ok_inv in Hs as (? & _ & ?). by simplify_eq.
  - rewrite (step_other _ _ E) in Hs. by simplify_eq.
Qed.

Lemma scan_app (st : pstate) (l1 l2 : list string) :
  scan st (l1 ++ l2) = (st' ←! scan st l1; scan st' l2).
Proof.
  revert st; induction l1 as [|line l1 IH]; intros st; simpl; [done|].
  destruct (step st line); simpl; [apply IH|done].
Qed.

Lemma scan_keeps_questions (st st' : pstate) (lines : list string) :
  Forall (λ line, classify line ≠ KQuestion) lines →
  scan st lines = Ok st' → questions st' = questions st.
Proof.
  intros Hall; revert st; induction Hall as [|line lines Hk _ IH];
    intros st Hs; simpl in Hs; [by simplify_eq|].
  apply bind_ok_inv in Hs as (st1 & H1 & H2).
  rewrite (IH _ H2). by apply step_keeps_questions with line.
Qed.

(** The record that the last question line opens never reaches
    [questions]: after that line and the lines of its block, [questions]
    holds what it held before, and the record open before. *)
Lemma scan_last_block (st st' : pstate) (line : string) (body : list string) :
  classify line = KQuestion →
  Forall (λ l, classify l ≠ KQuestion) body →
  scan st (line :: body) = Ok st' → questions st' = flush st.
Proof.
  intros Hq Hbody Hs. simpl in Hs.
  destruct (step_question st _ Hq) as (seg & _ & Heq). rewrite Heq in Hs.
  simpl in Hs. by rewrite (scan_keeps_questions _ _ _ Hbody Hs).
Qed.

(** ** The types of the values of a record *)

Lemma well_typed_empty : well_typed ∅.
Proof. repeat split; intros ?; by rewrite lookup_empty. Qed.

Lemma well_typed_blank (q : string) :
  well_typed (<["question" := VStr q]> blank_q).
Proof. unfold blank_q. repeat split; intros ?; by simplify_map_eq. Qed.

Lemma well_typed_options (d : dict) (l : list string) :
  well_typed d → well_typed (<["options" := VList l]> d).
Proof.
  intros (H1 & H2 & H3). repeat split; intros ?; simplify_map_eq; done.
Qed.

Lemma well_typed_answer (d : dict) (a : string) :
  well_typed d → well_typed (<["answer" := VStr a]> d).
Proof.
  intros (H1 & H2 & H3). repeat split; intros ?; simplify_map_eq; done.
Qed.

Lemma flush_typed (st : pstate) :
  state_typed st → Forall well_typed (flush st).
Proof.
  intros [Hqs Hcur]. unfold flush. destruct (dict_truthy _); [|done].
  apply Forall_app; auto.
Qed.

Lemma step_typed (st st' : pstate) (line : string) :
  state_typed st → step st line = Ok st' → state_typed st'.
Proof.
  intros Hst Hs. destruct (classify line) eqn:E.
  - destruct (step_question st _ E) as (seg & _ & Heq).
    rewrite Heq in Hs. simplify_eq. split; simpl.
    + by apply flush_typed.
    + apply well_typed_blank.
  - rewrite (step_option _ _ E) in Hs. destruct Hst as [Hqs Hcur].
    destruct (current_q st !! "options") as [[?|l]|]; simplify_eq.
    split; simpl; [done|]. by apply well_typed_options.
  - destruct (step_answer st _ E) as (seg & _ & Heq). rewrite Heq in Hs.
    apply bind_ok_inv in Hs as (a & _ & ?). simplify_eq.
    destruct Hst as [Hqs Hcur]. split; simpl; [done|].
    by apply well_typed_answer.
  - rewrite (step_other _ _ E) in Hs. by simplify_eq.
Qed.

Lemma scan_typed (st st' : pstate) (lines : list string) :
  state_typed st → scan st lines = Ok st' → state_typed st'.
Proof.
  revert st; induction lines as [|line lines IH]; intros st Hst Hs;
    simpl in Hs; [by simplify_eq|].
  apply bind_ok_inv in Hs as (st1 & H1 & H2).
  eauto using step_typed.
Qed.

(** On the dicts that the parser builds, [_is_valid_question] decides the
    validity of the specification. *)
Lemma is_valid_question_sound (d : dict) :
  well_typed d → _is_valid_question d = true → valid_record d.
Proof.
  intros (Ho & Hq & Ha). unfold _is_valid_question, valid_record.
  rewrite !andb_true_iff. intros [[Hlen Hin] Hbool].
  destruct (d !! "question") as [[q|?]|] eqn:Eq; [|by destruct (Hq l)|done].
  destruct (d !! "options") as [[?|opts]|] eqn:Eo; [by destruct (Ho s)| |done].
  destruct (d !! "answer") as [[a|?]|] eqn:Ea; [|by destruct (Ha l)|done].
  exists q, opts, a. simpl in *.
  repeat split; try done.
  - intros ->. done.
  - by apply Nat.eqb_eq.
  - rewrite !orb_true_iff in Hin.
    destruct Hin as [H|[H|[H|[H|H]]]]; try done;
      apply bool_decide_eq_true in H; simplify_eq; set_solver.
Qed.

Lemma is_valid_question_complete (d : dict) :
  valid_record d → _is_valid_question d = true.
Proof.
  intros (q & opts & a & Hq & Hne & Ho & Hlen & Ha & Hin).
  unfold _is_valid_question. rewrite Hq, Ho, Ha. simpl. rewrite Hlen. simpl.
  rewrite andb_true_iff; split.
  - rewrite !orb_true_iff.
    set_unfold in Hin. destruct Hin as [->|[->|[->|[->|[]]]]]; auto 10.
  - by destruct q.
Qed.

(** What [parse_quiz] returns is a part of what the loop collected. *)
Lemma parse_quiz_ok_inv (response_text : string) (qs : list dict) :
  parse_quiz response_text = Ok qs →
  ∃ st, scan (PState [] ∅) (clean_lines response_text) = Ok st
    ∧ qs = take 5 (List.filter _is_valid_question (questions st)).
Proof.
  unfold parse_quiz. intros H. apply bind_ok_inv in H as (st & Hs & Hq).
  exists st. by simplify_eq.
Qed.

(** ** Lines outside a record *)

(** A dict without the key "options" fails the validity filter. *)
Lemma no_options_invalid (d : dict) :
  d !! "options" = None → _is_valid_question d = false.
Proof. intros H. unfold _is_valid_question. by rewrite H. Qed.

(** Before the first question line [current_q] has no key "options", and
    [questions] is not written. *)
Lemma step_unopened (st st' : pstate) (line : string) :
  classify line ≠ KQuestion → current_q st !! "options" = None →
  step st line = Ok st' →
  current_q st' !! "options" = None ∧ questions st' = questions st.
Proof.
  intros Hk Hno Hs. split; [|by eapply step_keeps_questions].
  destruct (classify line) eqn:E; [done| | |].
  - rewrite (step_option _ _ E), Hno in Hs. done.
  - destruct (step_answer st _ E) as (seg & _ & Heq). rewrite Heq in Hs.
    apply bind_ok_inv in Hs as (a & _ & ?). simplify_eq. simpl.
    by rewrite lookup_insert_ne.
  - rewrite (step_other _ _ E) in Hs. by simplify_eq.
Qed.

Lemma scan_unopened (st st' : pstate) (lines : list string) :
  Forall (λ l, classify l ≠ KQuestion) lines →
  current_q st !! "options" = None →
  scan st lines = Ok st' →
  current_q st' !! "options" = None ∧ questions st' = questions st.
Proof.
  intros Hall; revert st; induction Hall as [|line lines Hk _ IH];
    intros st Hno Hs; simpl in Hs; [by simplify_eq|].
  apply bind_ok_inv in Hs as (st1 & H1 & H2).
  destruct (step_unopened _ _ _ Hk Hno H1) as [Hno1 Hq1].
  destruct (IH _ Hno1 H2) as [Hno2 Hq2]. split; congruence.
Qed.

(** An option line that no question line precedes makes the loop raise,
    whatever follows it. *)
Lemma stray_option_raises (pre rest : list string) (line : string) :
  Forall (λ l, classify l ≠ KQuestion) pre →
  classify line = KOption →
  raises (scan (PState [] ∅) (pre ++ line :: rest)).
Proof.
  intros Hpre Hopt. rewrite scan_app.
  destruct (scan (PState [] ∅) pre) as [st|e] eqn:E; simpl; [|by exists e].
  destruct (scan_unopened _ _ _ Hpre (lookup_empty _) E) as [Hno _].
  rewrite (step_option _ _ Hopt), Hno. simpl. by eexists.
Qed.

Lemma parse_quiz_stray_option
    (response_text : string) (pre rest : list string) (line : string) :
  clean_lines response_text = (pre ++ line :: rest)%list →
  Forall (λ l, classify l ≠ KQuestion) pre →
  classify line = KOption →
  raises (parse_quiz response_text).
Proof.
  intros Hl Hpre Hopt. unfold parse_quiz. rewrite Hl.
  destruct (stray_option_raises pre rest line Hpre Hopt) as [e ->].
  by exists e.
Qed.

(** Lines that take no branch leave the state as it is. *)
Lemma scan_other (st : pstate) (lines : list string) :
  Forall (λ l, classify l = KOther) lines → scan st lines = Ok st.
Proof.
  induction 1 as [|line lines Hk _ IH]; simpl; [done|].
  by rewrite (step_other _ _ Hk).
Qed.

(** A text without a line of the three recognised kinds gives the empty
    list. *)
Lemma parse_quiz_unrecognised (response_text : string) :
  Forall (λ l, classify l = KOther) (clean_lines response_text) →
  parse_quiz response_text = Ok [].
Proof. intros H. unfold parse_quiz. by rewrite (scan_other _ _ H). Qed.

Lemma parse_quiz_empty : parse_quiz "" = Ok [].
Proof. reflexivity. Qed.

(** ** The last record *)

(** With one question line in the text nothing is returned: the record
    it opens is never appended, and what was open before has no options. *)
Lemma one_question_line_no_output
    (response_text : string) (pre body : list string) (line : string)
    (qs : list dict) :
  clean_lines response_text = (pre ++ line :: body)%list →
  Forall (λ l, classify l ≠ KQuestion) pre →
  classify line = KQuestion →
  Forall (λ l, classify l ≠ KQuestion) body →
  parse_quiz response_text = Ok qs → qs = [].
Proof.
  intros Hl Hpre Hq Hbody H.
  apply parse_quiz_ok_inv in H as (st & Hs & ->).
  rewrite Hl, scan_app in Hs. apply bind_ok_inv in Hs as (st0 & H0 & H1).
  destruct (scan_unopened _ _ _ Hpre (lookup_empty _) H0) as [Hno Hnil].
  rewrite (scan_last_block _ _ _ _ Hq Hbody H1).
  unfold flush. rewrite Hnil. simpl in *.
  destruct (dict_truthy _); simpl; [|done].
  by rewrite (no_options_invalid _ Hno).
Qed.

(** [questions] only grows, and at its end: the records are collected in
    the order in which their question lines come. *)
Lemma step_questions_prefix (st st' : pstate) (line : string) :
  step st line = Ok st' → questions st `prefix_of` questions st'.
Proof.
  intros Hs. destruct (classify line) eqn:E.
  - destruct (step_question st _ E) as (seg & _ & Heq).
    rewrite Heq in Hs. simplify_eq. simpl. unfold flush.
    destruct (dict_truthy _); [by apply prefix_app_r|done].
  - by rewrite (step_keeps_questions st st' line) by (done || congruence).
  - by rewrite (step_keeps_questions st st' line) by (done || congruence).
  - by rewrite (step_keeps_questions st st' line) by (done || congruence).
Qed.

Lemma scan_questions_prefix (st st' : pstate) (lines : list string) :
  scan st lines = Ok st' → questions st `prefix_of` questions st'.
Proof.
  revert st; induction lines as [|line lines IH]; intros st Hs;
    simpl in Hs; [by simplify_eq|].
  apply bind_ok_inv in Hs as (st1 & H1 & H2).
  etrans; [by eapply step_questions_prefix|by apply IH].
Qed.

(** ** Texts made of blocks *)

Lemma split_text (lines : list string) :
  Forall clean_line lines → lines ≠ [] →
  Py.split "010" None (text lines) = lines.
Proof.
  induction 1 as [|l lines (_ & _ & Hl) Hall IH]; [done|]. intros _.
  destruct lines as [|l' lines].
  - by apply split_no_sep.
  - change (text (l :: l' :: lines)) with (l ++ String "010" (text (l' :: lines))).
    rewrite split_app, (split_no_sep _ _ Hl). simpl. f_equal. by apply IH.
Qed.

(** Line 82 gives back the lines of a text that was joined from clean
    lines. *)
Lemma clean_lines_text (lines : list string) :
  Forall clean_line lines → clean_lines (text lines) = lines.
Proof.
  intros Hall. destruct lines as [|l lines]; [done|].
  unfold clean_lines. rewrite (split_text _ Hall) by done.
  induction Hall as [|x xs (Hs & Hne & _) _ IH]; [done|].
  simpl. rewrite Hs. destruct x; [done|]. simpl. by f_equal.
Qed.

(** The records collected so far are not read by the loop body. *)
Lemma step_frame (qs0 : list dict) (st : pstate) (line : string) :
  step (PState (qs0 ++ questions st) (current_q st)) line
  = (st' ←! step st line;
     Ok (PState (qs0 ++ questions st') (current_q st'))).
Proof.
  destruct (classify line) eqn:E.
  - destruct (step_question st _ E) as (seg & Hseg & ->).
    destruct (step_question (PState (qs0 ++ questions st) (current_q st)) _ E)
      as (seg' & Hseg' & ->).
    assert (seg' = seg) as -> by congruence. simpl. unfold flush. simpl.
    destruct (dict_truthy _); by rewrite ?app_assoc.
  - rewrite !(step_option _ _ E). simpl.
    by destruct (current_q st !! "options") as [[?|?]|].
  - destruct (step_answer st _ E) as (seg & Hseg & ->).
    destruct (step_answer (PState (qs0 ++ questions st) (current_q st)) _ E)
      as (seg' & Hseg' & ->).
    assert (seg' = seg) as -> by congruence. by destruct (Py.item0 _).
  - rewrite !(step_other _ _ E). by destruct st.
Qed.

Lemma scan_frame (qs0 : list dict) (st : pstate) (lines : list string) :
  scan (PState (qs0 ++ questions st) (current_q st)) lines
  = (st' ←! scan st lines;
     Ok (PState (qs0 ++ questions st') (current_q st'))).
Proof.
  revert st; induction lines as [|line lines IH]; intros st; simpl; [done|].
  rewrite step_frame. destruct (step st line) as [st1|e]; simpl; [|done].
  apply IH.
Qed.

(** Once a question line was read, [current_q] keeps the key "question". *)
Lemma step_keeps_question_key (st st' : pstate) (line : string) :
  is_Some (current_q st !! "question") ∨ classify line = KQuestion →
  step st line = Ok st' → is_Some (current_q st' !! "question").
Proof.
  intros Hkey Hs. destruct (classify line) eqn:E.
  - destruct (step_question st _ E) as (seg & _ & Heq).
    rewrite Heq in Hs. simplify_eq. simpl. by rewrite lookup_insert_eq.
  - destruct Hkey as [Hkey|?]; [|done]. rewrite (step_option _ _ E) in Hs.
    destruct (current_q st !! "options") as [[?|?]|]; simplify_eq.
    simpl. by rewrite lookup_insert_ne.
  - destruct Hkey as [Hkey|?]; [|done].
    destruct (step_answer st _ E) as (seg & _ & Heq). rewrite Heq in Hs.
    apply bind_ok_inv in Hs as (a & _ & ?). simplify_eq.
    simpl. by rewrite lookup_insert_ne.
  - destruct Hkey as [Hkey|?]; [|done].
    rewrite (step_other _ _ E) in Hs. by simplify_eq.
Qed.

Lemma scan_keeps_question_key (st st' : pstate) (lines : list string) :
  is_Some (current_q st !! "question") →
  scan st lines = Ok st' → is_Some (current_q st' !! "question").
Proof.
  revert st; induction lines as [|line lines IH]; intros st Hkey Hs;
    simpl in Hs; [by simplify_eq|].
  apply bind_ok_inv in Hs as (st1 & H1 & H2).
  eapply IH; [|exact H2]. eapply step_keeps_question_key; eauto.
Qed.

Lemma block_of_truthy (b : list string) (r : dict) :
  block_of b r → dict_truthy r = true.
Proof.
  intros (line & body & -> & Hq & _ & Hs). simpl in Hs.
  apply bind_ok_inv in Hs as (st1 & H1 & H2).
  assert (is_Some (current_q st1 !! "question")) as Hkey
    by (eapply step_keeps_question_key; eauto).
  apply (scan_keeps_question_key _ _ _ Hkey) in H2 as [v Hv]. simpl in Hv.
  apply bool_decide_eq_true. intros ->. by rewrite lookup_empty in Hv.
Qed.

(** A block leaves its record open, and closes the record open before
    it, whatever that one is. *)
Lemma scan_block (st : pstate) (b : list string) (r : dict) :
  block_of b r → scan st b = Ok (PState (flush st) r).
Proof.
  intros (line & body & -> & Hq & _ & Hs). simpl in *.
  destruct (step_question (PState [] ∅) _ Hq) as (seg & Hseg & Heq).
  rewrite Heq in Hs. simpl in Hs.
  destruct (step_question st _ Hq) as (seg' & Hseg' & ->).
  assert (seg' = seg) as -> by congruence.
  change (flush (PState [] ∅)) with (@nil dict) in Hs.
  pose proof (scan_frame (flush st)
    (PState [] (<["question" := VStr (Py.strip seg)]> blank_q)) body) as Hf.
  simpl in Hf. rewrite app_nil_r in Hf. simpl. rewrite Hf, Hs.
  simpl. by rewrite app_nil_r.
Qed.

(** On a sequence of blocks the loop collects the records of all blocks
    but the last, in the order of the blocks; the record of the last
    block stays open. *)
Lemma scan_blocks (bs : list (list string)) (rs : list dict) (r : dict) :
  Forall2 block_of bs (rs ++ [r]) →
  ∀ st, scan st (concat bs) = Ok (PState (flush st ++ rs) r).
Proof.
  revert bs; induction rs as [|r1 rs IH]; intros bs Hbs st.
  - apply Forall2_cons_inv_r in Hbs as (b & bs' & Hb & Hnil & ->).
    apply Forall2_nil_inv_r in Hnil as ->. simpl.
    rewrite !app_nil_r. by apply scan_block.
  - apply Forall2_cons_inv_r in Hbs as (b & bs' & Hb & Hrest & ->).
    simpl. rewrite scan_app, (scan_block _ _ _ Hb). simpl.
    rewrite (IH _ Hrest). unfold flush at 1. simpl.
    rewrite (block_of_truthy _ _ Hb). by rewrite <- app_assoc.
Qed.

(** The output for a text of valid blocks: the records of all blocks but
    the last, in the order of the text, cut to five. *)
Lemma parse_quiz_blocks
    (response_text : string) (bs : list (list string)) (rs : list dict)
    (r : dict) :
  clean_lines response_text = concat bs →
  Forall2 block_of bs (rs ++ [r]) →
  Forall valid_record rs →
  parse_quiz response_text = Ok (take 5 rs).
Proof.
  intros Hl Hbs Hvalid. unfold parse_quiz.
  rewrite Hl, (scan_blocks _ _ _ Hbs). simpl. do 2 f_equal.
  change (flush (PState [] ∅)) with (@nil dict). simpl.
  clear Hbs. induction Hvalid as [|d ds Hd _ IH]; [done|].
  simpl. by rewrite (is_valid_question_complete _ Hd), IH.
Qed.

Lemma block_of_spec_block : block_of spec_block spec_record.
Proof.
  exists "Question 1: What is 2+2?", (tail spec_block).
  split; [reflexivity|]. split; [reflexivity|].
  split; [|vm_compute; reflexivity].
  repeat constructor; by vm_compute.
Qed.

Lemma clean_spec_block : Forall clean_line spec_block.
Proof. repeat constructor; by vm_compute. Qed.

Lemma valid_spec_record : valid_record spec_record.
Proof.
  apply is_valid_question_sound; [|reflexivity].
  repeat split; intros ?; by vm_compute.
Qed.

(** The scenario of the specification, repeated: of [n + 1] copies of
    its block, the records of the first [n] are returned, up to five. *)
Lemma parse_quiz_repeated_block (n : nat) :
  parse_quiz (text (concat (replicate (S n) spec_block)))
  = Ok (take 5 (replicate n spec_record)).
Proof.
  apply parse_quiz_blocks with (bs := replicate (S n) spec_block)
                               (r := spec_record).
  - apply clean_lines_text, Forall_concat, Forall_replicate, clean_spec_block.
  - rewrite <- replicate_S_end.
    induction (S n) as [|m IH]; simpl; constructor;
      [apply block_of_spec_block|apply IH].
  - apply Forall_replicate, valid_spec_record.
Qed.

(** ** The text of an answer line, the case of a marker *)

(** [split(":")[-1]] is the text after the last separator. *)
Lemma last_item_split_app (sep : ascii) (s t : string) :
  contains sep t = false →
  Py.last_item (Py.split sep None (s ++ String sep t)) = Ok t.
Proof.
  intros Ht. unfold Py.last_item.
  by rewrite split_app, (split_no_sep _ _ Ht), last_snoc.
Qed.

(** In an open record, an answer line stores the first character of what
    follows its last colon. *)
Lemma step_answer_last_colon (st : pstate) (s t : string) :
  classify (s ++ String ":" t) = KAnswer →
  contains ":" t = false →
  step st (s ++ String ":" t)
  = (letter ←! Py.item0 (Py.lower (Py.strip t));
     Ok (PState (questions st) (<["answer" := VStr letter]> (current_q st)))).
Proof.
  intros Hk Ht. destruct (step_answer st _ Hk) as (seg & Hseg & ->).
  rewrite (last_item_split_app _ _ _ Ht) in Hseg. by simplify_eq.
Qed.

(** A line that starts with a lower-case letter is never an option line. *)
Lemma lower_marker_not_option (c : ascii) (rest : string) :
  Py.lower_char c = c → classify (String c rest) ≠ KOption.
Proof.
  intros Hc. unfold classify.
  destruct (Py.startswith _ "question"); [done|].
  assert (Py.startswith_any (String c rest) ["A)"; "B)"; "C)"; "D)"] = false)
    as ->; [|by destruct (Py.startswith _ "answer:")].
  cbv [Py.startswith_any existsb]. cbn [Py.startswith].
  repeat match goal with
  | |- context [Ascii.eqb ?a c] =>
      destruct (Ascii.eqb_spec a c) as [<-|_]; [by vm_compute in Hc|]
  end. done.
Qed.

(** C4. Every record of the list that [parse_quiz] returns is valid: it
    has exactly four options, a question that is not empty, and an answer
    among a, b, c, d. *)
Theorem parse_quiz_records_valid (response_text : string) (qs : list dict) :
  parse_quiz response_text = Ok qs → Forall valid_record qs.
Proof.
  intros H. apply parse_quiz_ok_inv in H as (st & Hs & ->).
  assert (Hty : state_typed st).
  { eapply scan_typed; [|exact Hs]. split; [constructor|apply well_typed_empty]. }
  destruct Hty as [Hqs _].
  apply Forall_forall. intros d Hd.
  apply elem_of_take in Hd as (i & Hd & _).
  apply list_elem_of_lookup_2 in Hd.
  apply list_elem_of_In, filter_In in Hd as [Hin Hvalid].
  apply is_valid_question_sound; [|done].
  rewrite Forall_forall in Hqs. apply Hqs. by apply list_elem_of_In.
Qed.

Lemma parse_quiz_records_valid_witness :
  parse_quiz (text (spec_block ++ numbered_block "2")%list) = Ok [spec_record]
  ∧ Forall valid_record [spec_record].
Proof.
  split; [vm_compute; reflexivity|].
  apply (parse_quiz_records_valid (text (spec_block ++ numbered_block "2")%list)).
  vm_compute; reflexivity.
Defined.

(** C5. The list that [parse_quiz] returns has at most five records. *)
Theorem parse_quiz_at_most_five (response_text : string) (qs : list dict) :
  parse_quiz response_text = Ok qs → (length qs ≤ 5)%nat.
Proof.
  intros H. apply parse_quiz_ok_inv in H as (st & _ & ->).
  rewrite length_take. lia.
Qed.

Lemma parse_quiz_at_most_five_witness :
  parse_quiz seven_blocks = Ok (map numbered_record ["1"; "2"; "3"; "4"; "5"])
  ∧ (length (map numbered_record ["1"; "2"; "3"; "4"; "5"]) ≤ 5)%nat.
Proof.
  split; [vm_compute; reflexivity|].
  apply (parse_quiz_at_most_five seven_blocks).
  vm_compute; reflexivity.
Defined.


(** ** The claims on which the code departs from the specification *)

(** C1. On the block of the specification's scenario the loop ends with
    the record of the specification open in [current_q] and [questions]
    empty; no line after the loop appends it, and [parse_quiz] returns the
    empty list, not the list of that one record. *)
Theorem spec_block_record_lost :
  scan (PState [] ∅) (clean_lines (text spec_block)) = Ok (PState [] spec_record)
  ∧ parse_quiz (text spec_block) = Ok [].
Proof. split; vm_compute; reflexivity. Qed.

(** C2. [parse_quiz] is not total: an option line before any question
    line raises [KeyError], and an answer line with nothing after its
    colon raises [IndexError]. *)
Theorem parse_quiz_not_total :
  parse_quiz "A) 3" = Raise (KeyError "options")
  ∧ parse_quiz "Answer:" = Raise IndexError.
Proof. split; vm_compute; reflexivity. Qed.

(** C3. With no record open, an option line is not ignored: it raises
    [KeyError], and the well-formed blocks after it are not parsed. An
    answer line is not ignored either: it writes the key "answer" into
    the empty [current_q]. *)
Theorem stray_lines_not_ignored :
  step (PState [] ∅) "A) 3" = Raise (KeyError "options")
  ∧ step (PState [] ∅) "Answer: B" = Ok (PState [] (<["answer" := VStr "b"]> ∅))
  ∧ parse_quiz (text (spec_block ++ numbered_block "2")%list) = Ok [spec_record]
  ∧ parse_quiz (text ("A) 3" :: spec_block ++ numbered_block "2")%list)
    = Raise (KeyError "options").
Proof. repeat split; vm_compute; reflexivity. Qed.

(** C6. On five valid blocks numbered 1 to 5 the loop ends with the
    records of the blocks 1 to 4 in [questions], in the order of the text,
    and the record of block 5 open; [parse_quiz] returns the first four,
    and the record of block 5 is not in the list. *)
Theorem five_blocks_fifth_lost :
  scan (PState [] ∅) (clean_lines five_blocks)
    = Ok (PState (map numbered_record ["1"; "2"; "3"; "4"]) (numbered_record "5"))
  ∧ parse_quiz five_blocks = Ok (map numbered_record ["1"; "2"; "3"; "4"]).
Proof. split; vm_compute; reflexivity. Qed.

(** C7. On an answer line with two colons the stored letter is the first
    character after the last colon, not after the first: the line
    "Answer: B: correct" stores "c", and the record is returned with the
    answer "c". *)
Theorem answer_after_last_colon :
  step (PState [] open_q) "Answer: B: correct"
    = Ok (PState [] (<["answer" := VStr "c"]> open_q))
  ∧ parse_quiz (text (two_colon_block ++ numbered_block "2")%list)
    = Ok [mk_question "What is 2+2?" ["3"; "4"; "5"; "6"] "c"].
Proof. split; vm_compute; reflexivity. Qed.

(** C8. The option markers are matched as they are written, in upper
    case: the line "a) 3" takes no branch and leaves the open record
    unchanged, and a block with lower-case markers is dropped for having
    no option. *)
Theorem lowercase_marker_not_option :
  Py.lower "a) 3" = Py.lower "A) 3"
  ∧ classify "A) 3" = KOption
  ∧ classify "a) 3" = KOther
  ∧ step (PState [] open_q) "a) 3" = Ok (PState [] open_q)
  ∧ parse_quiz (text (lowercase_block ++ numbered_block "2")%list) = Ok [].
Proof. repeat split; vm_compute; reflexivity. Qed.

(** C9. An option line loses its first three characters, one more than
    the marker: the line "A)3" appends the empty string, where "A) 3"
    appends "3", and a block written without spaces is returned with four
    empty options. *)
Theorem option_third_char_dropped :
  step (PState [] open_q) "A)3"
    = Ok (PState [] (<["options" := VList [""]]> open_q))
  ∧ step (PState [] open_q) "A) 3"
    = Ok (PState [] (<["options" := VList ["3"]]> open_q))
  ∧ parse_quiz (text (tight_block ++ numbered_block "2")%list)
    = Ok [mk_question "What is 2+2?" [""; ""; ""; ""] "b"].
Proof. repeat split; vm_compute; reflexivity. Qed.

(** As the only lines of the text, the same block builds the same record
    and leaves it in [current_q]: [parse_quiz] returns the empty list. *)
Lemma same_marker_block_lost :
  scan (PState [] ∅) (clean_lines (text same_marker_block))
    = Ok (PState [] same_marker_record)
  ∧ _is_valid_question same_marker_record = true
  ∧ parse_quiz (text same_marker_block) = Ok [].
Proof. repeat split; vm_compute; reflexivity. Qed.

(** The markers are indeed not compared: once another question line
    follows, the record of [same_marker_block] is returned. *)
Lemma same_marker_block_returned_when_followed :
  parse_quiz (text (same_marker_block ++ numbered_block "2")%list)
  = Ok [same_marker_record].
Proof. vm_compute; reflexivity. Qed.

(** ** When [parse_quiz] raises, and what *)

Lemma step_raise_inv (st : pstate) (line : string) (e : exn) :
  state_typed st → step st line = Raise e →
  e = KeyError "options" ∨ e = IndexError.
Proof.
  intros [_ (Ho & _ & _)] Hs. destruct (classify line) eqn:E.
  - destruct (step_question st _ E) as (seg & _ & Heq). congruence.
  - rewrite (step_option _ _ E) in Hs.
    destruct (current_q st !! "options") as [[s|l]|] eqn:El;
      [by destruct (Ho s)|done|left; congruence].
  - destruct (step_answer st _ E) as (seg & _ & Heq). rewrite Heq in Hs.
    destruct (Py.lower (Py.strip seg)); simpl in Hs; [right; congruence|done].
  - rewrite (step_other _ _ E) in Hs. done.
Qed.

Lemma scan_raise_inv (st : pstate) (lines : list string) (e : exn) :
  state_typed st → scan st lines = Raise e →
  e = KeyError "options" ∨ e = IndexError.
Proof.
  revert st; induction lines as [|line lines IH]; intros st Hty Hs;
    simpl in Hs; [done|].
  destruct (step st line) as [st1|e1] eqn:E1; simpl in Hs.
  - eapply IH; [|exact Hs]. by eapply step_typed.
  - simplify_eq. by eapply step_raise_inv.
Qed.

Lemma init_typed : state_typed (PState [] ∅).
Proof. split; [constructor|apply well_typed_empty]. Qed.

Lemma parse_quiz_raise_scan (response_text : string) (e : exn) :
  parse_quiz response_text = Raise e →
  scan (PState [] ∅) (clean_lines response_text) = Raise e.
Proof.
  unfold parse_quiz. intros H.
  destruct (scan (PState [] ∅) (clean_lines response_text)) as [st|e'];
    simpl in H; [done|congruence].
Qed.

(** The message of an exception of [parse_quiz] never looks like a rate
    limit. *)
Lemma parse_quiz_raise_no_429 (response_text : string) (e : exn) :
  parse_quiz response_text = Raise e → str_in "429" (exn_str e) = false.
Proof.
  intros H%parse_quiz_raise_scan.
  by destruct (scan_raise_inv _ _ _ init_typed H) as [->| ->].
Qed.

(** What [parse_quiz] returns is valid and short, as a shared fact. *)
Lemma parse_quiz_ok_valid (response_text : string) (qs : list dict) :
  parse_quiz response_text = Ok qs →
  Forall valid_record qs ∧ (length qs ≤ 5)%nat.
Proof.
  intros H. apply parse_quiz_ok_inv in H as (st & Hs & ->).
  split; [|rewrite length_take; lia].
  destruct (scan_typed _ _ _ init_typed Hs) as [Hqs _].
  apply Forall_take, Forall_forall. intros d Hd.
  apply list_elem_of_In, filter_In in Hd as [Hin Hvalid].
  apply is_valid_question_sound; [|done].
  rewrite Forall_forall in Hqs. apply Hqs. by apply list_elem_of_In.
Qed.

Lemma scan_returns_iff (opened : bool) (st : pstate) (lines : list string) :
  opened_as opened (current_q st) →
  (∃ st', scan st lines = Ok st') ↔ safe_lines opened lines = true.
Proof.
  revert opened st; induction lines as [|line lines IH]; intros opened st Hop;
    simpl; [split; [done|by eauto]|].
  destruct (classify line) eqn:E.
  - destruct (step_question st _ E) as (seg & _ & ->). simpl.
    apply IH. simpl. exists []. unfold blank_q. by simplify_map_eq.
  - rewrite (step_option _ _ E). destruct opened; simpl in *.
    + destruct Hop as [l ->]. simpl. apply IH. simpl. eexists.
      by rewrite lookup_insert_eq.
    + rewrite Hop. simpl. split; [by intros [? ?]|done].
  - destruct (step_answer st _ E) as (seg & Hseg & ->).
    unfold answer_given. rewrite Hseg.
    destruct (Py.lower (Py.strip seg)) as [|c rest]; simpl.
    + split; [by intros [? ?]|done].
    + apply IH. simpl. unfold opened_as in *.
      destruct opened; by rewrite lookup_insert_ne.
  - rewrite (step_other _ _ E). simpl. by apply IH.
Qed.

(** ** The attempts of [generate_quiz] *)

Lemma try_once_inl (r : reply) (qs : list dict) :
  try_once r = inl qs ↔ ∃ text, r = Reply text ∧ parse_quiz text = Ok qs.
Proof.
  unfold try_once. split.
  - destruct r as [text|msg]; [|done].
    destruct (parse_quiz text) eqn:E; [|done]. intros [= ->]. eauto.
  - intros (text & -> & ->). done.
Qed.

(** Only a failure of the model is taken for a rate limit. *)
Lemma try_once_429 (r : reply) (msg : string) :
  try_once r = inr msg → str_in "429" msg = true → r = Failure msg.
Proof.
  unfold try_once. destruct r as [text|msg']; [|congruence].
  destruct (parse_quiz text) as [qs|e] eqn:E; [done|].
  intros [= <-]. by rewrite (parse_quiz_raise_no_429 _ _ E).
Qed.

Lemma attempts_returns (self : QuizGenerator) (model : nat → reply)
    (fuel attempt : nat) (qs : list dict) :
  snd (attempts self model fuel attempt) = inl (Some qs) →
  ∃ k text, model k = Reply text ∧ parse_quiz text = Ok qs.
Proof.
  revert attempt; induction fuel as [|fuel IH]; intros attempt; simpl; [done|].
  destruct (try_once (model attempt)) as [qs'|msg] eqn:E; simpl.
  - intros [= ->]. apply try_once_inl in E as (text & ? & ?). eauto.
  - destruct (str_in "429" msg && _); [|done].
    specialize (IH (S attempt)).
    destruct (attempts self model fuel (S attempt)) as [evs res]. simpl in *.
    done.
Qed.

(** ** Properties beyond the claims: [parse_quiz] *)

(** X1. [parse_quiz] returns a list exactly when no option line comes
    before the first question line and every answer line has a text after
    its last colon; on every other text it raises. *)
Theorem parse_quiz_returns_iff (response_text : string) :
  (∃ qs, parse_quiz response_text = Ok qs)
  ↔ safe_lines false (clean_lines response_text) = true.
Proof.
  rewrite <- (scan_returns_iff false (PState [] ∅)) by apply lookup_empty.
  unfold parse_quiz. split.
  - intros [qs H]. apply bind_ok_inv in H as (st & Hs & _). eauto.
  - intros [st ->]. simpl. eauto.
Qed.

(** X2. The only exceptions of [parse_quiz] are [KeyError('options')] and
    [IndexError]. *)
Theorem parse_quiz_raise_cases (response_text : string) (e : exn) :
  parse_quiz response_text = Raise e →
  e = KeyError "options" ∨ e = IndexError.
Proof.
  intros H%parse_quiz_raise_scan. exact (scan_raise_inv _ _ _ init_typed H).
Qed.

Lemma parse_quiz_raise_cases_witness :
  parse_quiz "Answer:" = Raise IndexError
  ∧ (IndexError = KeyError "options" ∨ IndexError = IndexError).
Proof.
  split; [reflexivity|].
  apply (parse_quiz_raise_cases "Answer:"). reflexivity.
Defined.

Lemma scan_options (st st' : pstate) (body : list string) (l0 : list string) :
  Forall (λ l, classify l ≠ KQuestion) body →
  current_q st !! "options" = Some (VList l0) →
  scan st body = Ok st' →
  current_q st' !! "options"
  = Some (VList (l0 ++ map option_text (option_lines body))).
Proof.
  intros Hall; revert st l0; induction Hall as [|line body Hk _ IH];
    intros st l0 Hopt Hs; simpl in Hs.
  - simplify_eq. by rewrite app_nil_r.
  - apply bind_ok_inv in Hs as (st1 & H1 & H2).
    unfold option_lines. simpl. fold (option_lines body).
    destruct (classify line) eqn:E; [done| | |].
    + rewrite (step_option _ _ E), Hopt in H1. simplify_eq.
      rewrite (IH _ (l0 ++ [option_text line])%list (lookup_insert_eq _ _ _) H2).
      rewrite bool_decide_eq_true_2 by done. simpl.
      by rewrite <- app_assoc.
    + destruct (step_answer st _ E) as (seg & _ & Heq). rewrite Heq in H1.
      apply bind_ok_inv in H1 as (a & _ & ?). simplify_eq.
      rewrite bool_decide_eq_false_2 by done.
      eapply IH; [|exact H2]. simpl. by rewrite lookup_insert_ne.
    + rewrite (step_other _ _ E) in H1. simplify_eq.
      rewrite bool_decide_eq_false_2 by done. by eapply IH.
Qed.

(** X3. The options of the record of a block are the texts of its
    option lines, in the order of the lines, whatever their markers; so a
    block gives a valid record only if it has exactly four option lines. *)
Theorem block_options (b : list string) (r : dict) :
  block_of b r →
  r !! "options" = Some (VList (map option_text (option_lines b)))
  ∧ (_is_valid_question r = true → length (option_lines b) = 4%nat).
Proof.
  intros (line & body & -> & Hq & Hbody & Hs).
  assert (r !! "options" = Some (VList (map option_text (option_lines body))))
    as Hr.
  { simpl in Hs. destruct (step_question (PState [] ∅) _ Hq) as (seg & _ & Heq).
    rewrite Heq in Hs. simpl in Hs.
    apply (scan_options _ _ _ [] Hbody) in Hs; [done|].
    simpl. unfold blank_q. by simplify_map_eq. }
  assert (option_lines (line :: body) = option_lines body) as ->.
  { unfold option_lines. simpl. by rewrite bool_decide_eq_false_2 by congruence. }
  split; [done|].
  unfold _is_valid_question. rewrite Hr. simpl. rewrite length_map.
  intros [[H _]%andb_true_iff _]%andb_true_iff. by apply Nat.eqb_eq.
Qed.

Lemma block_options_witness :
  block_of spec_block spec_record
  ∧ spec_record !! "options" = Some (VList (map option_text (option_lines spec_block)))
  ∧ (_is_valid_question spec_record = true
     → length (option_lines spec_block) = 4%nat).
Proof.
  split; [apply block_of_spec_block|].
  apply (block_options spec_block spec_record), block_of_spec_block.
Defined.

(** X4. A text made of blocks, each giving a valid record on its own:
    [parse_quiz] returns the records of all blocks but the last, in the
    order of the text, cut to five. *)
Theorem parse_quiz_text_of_blocks
    (bs : list (list string)) (rs : list dict) (r : dict) :
  Forall clean_line (concat bs) →
  Forall2 block_of bs (rs ++ [r]) →
  Forall valid_record rs →
  parse_quiz (text (concat bs)) = Ok (take 5 rs).
Proof.
  intros Hclean Hbs Hvalid.
  apply parse_quiz_blocks with (bs := bs) (r := r); [|done..].
  by apply clean_lines_text.
Qed.

Lemma parse_quiz_text_of_blocks_witness :
  parse_quiz (text (concat [spec_block; numbered_block "2"]))
  = Ok (take 5 [spec_record]).
Proof.
  apply (parse_quiz_text_of_blocks [spec_block; numbered_block "2"]
           [spec_record] (numbered_record "2")).
  - repeat constructor; by vm_compute.
  - constructor; [apply block_of_spec_block|].
    constructor; [|constructor].
    exists "Question 2: Item 2?", (tail (numbered_block "2")).
    split; [reflexivity|]. split; [reflexivity|].
    split; [|vm_compute; reflexivity].
    repeat constructor; by vm_compute.
  - constructor; [apply valid_spec_record|constructor].
Defined.

(** X5. On the dicts that the parser builds, [_is_valid_question] holds
    exactly for the records with four options, a question that is not
    empty and an answer among a, b, c, d. *)
Theorem is_valid_question_iff (d : dict) :
  well_typed d → (_is_valid_question d = true ↔ valid_record d).
Proof.
  intros Hty. split.
  - by apply is_valid_question_sound.
  - apply is_valid_question_complete.
Qed.

Lemma is_valid_question_iff_witness :
  _is_valid_question spec_record = true ↔ valid_record spec_record.
Proof.
  apply (is_valid_question_iff spec_record).
  repeat split; intros ?; by vm_compute.
Defined.

(** ** Properties beyond the claims: [generate_quiz] *)

(** X6. With the settings of [__init__], [generate_quiz] calls the model
    once, twice or three times, sleeping 5 seconds before the second call
    and 10 before the third, and nothing else. *)
Theorem generate_quiz_trace
    (split_text : string → list string) (model : string → nat → reply)
    (pdf_text : string) :
  let evs := fst (generate_quiz __init__ split_text model pdf_text) in
  evs = [Generate 0]
  ∨ evs = [Generate 0; Sleep 5; Generate 1]
  ∨ evs = [Generate 0; Sleep 5; Generate 1; Sleep 10; Generate 2].
Proof.
  unfold generate_quiz. cbn [max_retries __init__ attempts].
  set (m := model _).
  destruct (try_once (m 0)) as [?|m0]; [by left|].
  destruct (str_in "429" m0); cbn; [|by left].
  destruct (try_once (m 1)) as [?|m1]; [by right; left|].
  destruct (str_in "429" m1); cbn; [|by right; left].
  destruct (try_once (m 2)) as [?|m2]; [|rewrite andb_false_r];
    by right; right.
Qed.

(** X7. With the settings of [__init__], [generate_quiz] returns the quiz
    [qs] exactly when some attempt among the three gets a response that
    [parse_quiz] turns into [qs], and each attempt before it failed with a
    message that contains 429. *)
Theorem generate_quiz_returns_iff
    (split_text : string → list string) (model : string → nat → reply)
    (pdf_text : string) (qs : list dict) :
  let prompt := quiz_prompt (String.concat nl (take 3 (split_text pdf_text))) in
  snd (generate_quiz __init__ split_text model pdf_text) = Returns (Some qs)
  ↔ ∃ k response_text,
      (k < 3)%nat
      ∧ rate_limited_before (model prompt) k
      ∧ model prompt k = Reply response_text
      ∧ parse_quiz response_text = Ok qs.
Proof.
  unfold generate_quiz. cbn [max_retries __init__ attempts].
  set (m := model _). cbv zeta. split.
  - destruct (try_once (m 0)) as [q0|m0] eqn:E0.
    { cbn. intros [= ->]. apply try_once_inl in E0 as (t & ? & ?).
      exists 0%nat, t. repeat split; [lia| |done..]. intros j Hj. lia. }
    destruct (str_in "429" m0) eqn:S0; cbn; [|done].
    apply (try_once_429 _ _ E0) in S0 as F0.
    destruct (try_once (m 1)) as [q1|m1] eqn:E1.
    { cbn. intros [= ->]. apply try_once_inl in E1 as (t & ? & ?).
      exists 1%nat, t. repeat split; [lia| |done..].
      intros j Hj. assert (j = 0)%nat as -> by lia. eauto. }
    destruct (str_in "429" m1) eqn:S1; cbn; [|done].
    apply (try_once_429 _ _ E1) in S1 as F1.
    destruct (try_once (m 2)) as [q2|m2] eqn:E2; cbn;
      [|by rewrite andb_false_r].
    intros [= ->]. apply try_once_inl in E2 as (t & ? & ?).
    exists 2%nat, t. repeat split; [lia| |done..].
    intros j Hj.
    assert (j = 0 ∨ j = 1)%nat as [-> | ->] by lia; eauto.
  - intros (k & t & Hk & Hbefore & Hreply & Hparse).
    assert (try_once (m k) = inl qs) as Ek
      by (apply try_once_inl; eauto).
    assert (∀ j, (j < k)%nat →
              ∃ msg, try_once (m j) = inr msg ∧ str_in "429" msg = true) as Hb.
    { intros j Hj. destruct (Hbefore j Hj) as (msg & Hm & Hs).
      exists msg. by rewrite Hm. }
    destruct k as [|[|[|k]]]; [| | |lia].
    + by rewrite Ek.
    + destruct (Hb 0%nat) as (m0 & -> & ->); [lia|]. cbn. by rewrite Ek.
    + destruct (Hb 0%nat) as (m0 & -> & ->); [lia|]. cbn.
      destruct (Hb 1%nat) as (m1 & -> & ->); [lia|]. cbn. by rewrite Ek.
Qed.

(** X8. An exception of [parse_quiz] is not retried: when the first
    response makes [parse_quiz] raise, [generate_quiz] calls the model
    once, does not sleep, and raises a [RuntimeError] that carries the
    message of that exception. *)
Theorem generate_quiz_parse_error_final
    (split_text : string → list string) (model : string → nat → reply)
    (pdf_text response_text : string) (e : exn) :
  model (quiz_prompt (String.concat nl (take 3 (split_text pdf_text)))) 0%nat
    = Reply response_text →
  parse_quiz response_text = Raise e →
  generate_quiz __init__ split_text model pdf_text
  = ([Generate 0], RuntimeError ("Quiz generation failed: " ++ exn_str e)).
Proof.
  intros Hm Hp. unfold generate_quiz. cbn [max_retries __init__ attempts].
  unfold try_once at 1. rewrite Hm, Hp.
  by rewrite (parse_quiz_raise_no_429 _ _ Hp).
Qed.

Lemma generate_quiz_parse_error_final_witness :
  generate_quiz __init__ (λ t, [t]) (λ _ _, Reply "A) 3") "some text"
  = ([Generate 0], RuntimeError "Quiz generation failed: 'options'").
Proof.
  apply (generate_quiz_parse_error_final (λ t, [t]) (λ _ _, Reply "A) 3")
           "some text" "A) 3" (KeyError "options")); reflexivity.
Defined.

(** X9. When the three attempts fail and the first two messages contain
    429, [generate_quiz] sleeps 5 and then 10 seconds and raises a
    [RuntimeError] with the message of the third failure. *)
Theorem generate_quiz_rate_limit_exhausted
    (split_text : string → list string) (model : string → nat → reply)
    (pdf_text m0 m1 m2 : string) :
  let prompt := quiz_prompt (String.concat nl (take 3 (split_text pdf_text))) in
  model prompt 0%nat = Failure m0 → str_in "429" m0 = true →
  model prompt 1%nat = Failure m1 → str_in "429" m1 = true →
  model prompt 2%nat = Failure m2 →
  generate_quiz __init__ split_text model pdf_text
  = ([Generate 0; Sleep 5; Generate 1; Sleep 10; Generate 2],
     RuntimeError ("Quiz generation failed: " ++ m2)).
Proof.
  cbv zeta. intros H0 S0 H1 S1 H2.
  unfold generate_quiz. cbn [max_retries __init__ attempts].
  unfold try_once. rewrite H0, S0. cbn. rewrite H1, S1. cbn.
  by rewrite H2, andb_false_r.
Qed.

Lemma generate_quiz_rate_limit_exhausted_witness :
  generate_quiz __init__ (λ t, [t]) (λ _ _, Failure "429 Too Many Requests") ""
  = ([Generate 0; Sleep 5; Generate 1; Sleep 10; Generate 2],
     RuntimeError "Quiz generation failed: 429 Too Many Requests").
Proof.
  apply (generate_quiz_rate_limit_exhausted (λ t, [t])
           (λ _ _, Failure "429 Too Many Requests") ""
           "429 Too Many Requests" "429 Too Many Requests"
           "429 Too Many Requests"); reflexivity.
Defined.

(** X10. Whatever the settings, a quiz that [generate_quiz] returns has
    at most five records, and each has four options, a question that is
    not empty and an answer among a, b, c, d. *)
Theorem generate_quiz_valid
    (self : QuizGenerator) (split_text : string → list string)
    (model : string → nat → reply) (pdf_text : string) (qs : list dict) :
  snd (generate_quiz self split_text model pdf_text) = Returns (Some qs) →
  Forall valid_record qs ∧ (length qs ≤ 5)%nat.
Proof.
  unfold generate_quiz. set (m := model _).
  pose proof (attempts_returns self m (max_retries self) 0 qs) as H.
  destruct (attempts self m (max_retries self) 0) as [evs [v|msg]];
    simpl in *; [|done].
  intros [= ->]. destruct H as (k & t & _ & Hp); [done|].
  by apply parse_quiz_ok_valid in Hp.
Qed.

Lemma generate_quiz_valid_witness :
  Forall valid_record [spec_record] ∧ (length [spec_record] ≤ 5)%nat.
Proof.
  apply (generate_quiz_valid __init__ (λ t, [t])
           (λ _ _, Reply (text (spec_block ++ numbered_block "2")%list)) "").
  vm_compute. reflexivity.
Defined.

(** X11. With the settings of [__init__], [generate_quiz] never returns
    [None]: it returns a list or raises the [RuntimeError]. *)
Theorem generate_quiz_never_none
    (split_text : string → list string) (model : string → nat → reply)
    (pdf_text : string) :
  snd (generate_quiz __init__ split_text model pdf_text) ≠ Returns None.
Proof.
  unfold generate_quiz. cbn [max_retries __init__ attempts].
  set (m := model _).
  destruct (try_once (m 0)) as [?|m0]; [done|].
  destruct (str_in "429" m0); cbn; [|done].
  destruct (try_once (m 1)) as [?|m1]; [done|].
  destruct (str_in "429" m1); cbn; [|done].
  destruct (try_once (m 2)) as [?|m2]; [done|]. by rewrite andb_false_r.
Qed.

(** ** The session code on valid records *)

Lemma valid_record_getitem (q : dict) :
  valid_record q →
  ∃ qtext opts a i,
    getitem q "question" = inr (VStr qtext)
    ∧ getitem q "options" = inr (VList opts)
    ∧ getitem q "answer" = inr (VStr a)
    ∧ length opts = 4%nat
    ∧ ["a"; "b"; "c"; "d"] !! i = Some a.
Proof.
  intros (qtext & opts & a & Hq & _ & Ho & Hlen & Ha & Hin).
  apply list_elem_of_lookup in Hin as [i Hi].
  exists qtext, opts, a, i. unfold getitem. by rewrite Hq, Ho, Ha.
Qed.

Lemma correct_option_at (q : dict) (opts : list string) (a : string) (i : nat) :
  getitem q "options" = inr (VList opts) →
  getitem q "answer" = inr (VStr a) →
  length opts = 4%nat →
  ["a"; "b"; "c"; "d"] !! i = Some a →
  ∃ o, opts !! i = Some o ∧ correct_option q = inr o.
Proof.
  intros Ho Ha Hlen Hi. unfold correct_option. rewrite Ho, Ha. simpl.
  destruct opts as [|o0 [|o1 [|o2 [|o3 [|? ?]]]]]; try done.
  destruct i as [|[|[|[|i]]]]; simplify_eq/=; eauto.
Qed.

Lemma correct_option_returns (q : dict) :
  valid_record q → ∃ o, correct_option q = inr o.
Proof.
  intros (qtext & opts & a & i & _ & Ho & Ha & Hlen & Hi)%valid_record_getitem.
  destruct (correct_option_at q opts a i Ho Ha Hlen Hi) as (o & _ & ?). eauto.
Qed.

Lemma score_returns (user_answers : list string) (quiz : list dict) :
  Forall valid_record quiz →
  ∃ n, score user_answers quiz = inr n
       ∧ (n ≤ length user_answers)%nat ∧ (n ≤ length quiz)%nat.
Proof.
  intros Hall; revert user_answers;
    induction Hall as [|q quiz Hq _ IH]; intros [|ans ua]; simpl;
    try (exists 0%nat; split; [done|lia]).
  apply valid_record_getitem in Hq as (? & ? & a & ? & _ & _ & -> & _).
  destruct (IH ua) as (n & -> & ? & ?). simpl.
  eexists; split; [done|]. case_bool_decide; lia.
Qed.

Lemma review_returns (user_answers : list string) (quiz : list dict) :
  Forall valid_record quiz →
  ∃ rows, review user_answers quiz = inr rows
          ∧ length rows = (length user_answers `min` length quiz)%nat.
Proof.
  intros Hall; revert user_answers;
    induction Hall as [|q quiz Hq _ IH]; intros [|ans ua]; simpl;
    try (by exists []).
  destruct (correct_option_returns q Hq) as [o Ho].
  apply valid_record_getitem in Hq as (? & ? & a & ? & -> & _).
  rewrite Ho. destruct (IH ua) as (rows & -> & Hlen). simpl.
  eexists; split; [done|]. simpl. by rewrite Hlen.
Qed.

Lemma show_results_returns (user_answers : list string) (quiz : list dict) :
  Forall valid_record quiz → quiz ≠ [] →
  ∃ r, _show_results user_answers quiz = inr r.
Proof.
  intros Hall Hne. unfold _show_results.
  destruct (score_returns user_answers quiz Hall) as (n & -> & _).
  destruct (review_returns user_answers quiz Hall) as (rows & -> & _).
  simpl. destruct quiz; [done|]. simpl. eauto.
Qed.

Lemma py_index_lookup {A : Type} (l : list A) (i : nat) (x : A) :
  l !! i = Some x → py_index l (Z.of_nat i) = inr x.
Proof.
  intros Hl. pose proof (lookup_lt_Some _ _ _ Hl) as Hlt.
  unfold py_index.
  destruct (Z.ltb_spec (Z.of_nat i) 0); [lia|].
  destruct (Z.leb_spec 0 (Z.of_nat i)); [|lia].
  destruct (Z.ltb_spec (Z.of_nat i) (Z.of_nat (length l))); [|lia].
  simpl. by rewrite Nat2Z.id, Hl.
Qed.

Lemma handle_quiz_ok (s : session) (qs : list dict)
    (picked : option nat) (b : button) :
  quiz s = Some qs → qs ≠ [] → session_ok s →
  ∃ s', _handle_quiz s qs picked b = inr s' ∧ session_ok s'.
Proof.
  intros Hquiz Hne Hok. unfold session_ok in Hok. rewrite Hquiz in Hok.
  destruct Hok as (Hvalid & [Hlo Hhi] & Hans & Hnonempty).
  unfold _handle_quiz.
  destruct (Z.ltb_spec (current_question s) (Z.of_nat (length qs))) as [Hlt|Hge].
  - destruct (lookup_lt_is_Some_2 qs (Z.to_nat (current_question s)))
      as [q Hq]; [lia|].
    pose proof (py_index_lookup _ _ _ Hq) as Hidx.
    rewrite Z2Nat.id in Hidx by done. rewrite Hidx. simpl.
    assert (valid_record q) as Hv
      by (eapply Forall_forall; [exact Hvalid|by eapply list_elem_of_lookup_2]).
    apply valid_record_getitem in Hv as (? & opts & ? & ? & -> & -> & _).
    simpl.
    destruct (bool_decide (b = NextButton) && Py.truthy _) eqn:Enext.
    + eexists; split; [done|]. unfold session_ok. simpl. rewrite Hquiz.
      apply andb_true_iff in Enext as [_ Htruthy].
      repeat split; [done|lia|lia|rewrite length_app; simpl; lia|].
      apply Forall_app; split; [done|].
      constructor; [|done]. intros Heq. by rewrite Heq in Htruthy.
    + destruct ((0 <? current_question s)%Z && _) eqn:Eprev.
      * eexists; split; [done|]. unfold session_ok. simpl. rewrite Hquiz.
        apply andb_true_iff in Eprev as [Hpos%Z.ltb_lt _].
        repeat split; [done|lia|lia|lia|done].
      * exists s. split; [done|]. unfold session_ok. by rewrite Hquiz.
  - destruct (show_results_returns (user_answers s) qs Hvalid Hne) as [r ->].
    simpl. exists s. split; [done|]. unfold session_ok. by rewrite Hquiz.
Qed.

Lemma quiz_flow_ok (s : session) (a : action) :
  session_ok s → valid_action a →
  ∃ s', _quiz_flow s a = inr s' ∧ session_ok s'.
Proof.
  intros Hok Ha. unfold _quiz_flow.
  assert (∀ s1 picked b, session_ok s1 →
    ∃ s', (if quiz_truthy (quiz s1)
           then _handle_quiz s1 (default [] (quiz s1)) picked b
           else inr s1) = inr s' ∧ session_ok s') as Hrun.
  { intros s1 picked b Hs1.
    destruct (quiz s1) as [[|q qs]|] eqn:E; simpl; eauto.
    by apply handle_quiz_ok. }
  destruct a as [[[qs|]|msg]|picked b]; apply Hrun; try done.
  unfold session_ok. simpl. repeat split; [done|lia|lia|lia|done].
Qed.

Lemma runs_ok (s : session) (actions : list action) :
  session_ok s → Forall valid_action actions →
  ∃ s', runs s actions = inr s' ∧ session_ok s'.
Proof.
  intros Hok Hall; revert s Hok;
    induction Hall as [|a actions Ha _ IH]; intros s Hok; simpl; [eauto|].
  destruct (quiz_flow_ok s a Hok Ha) as (s1 & -> & Hok1). simpl.
  by apply IH.
Qed.

(** ** Properties beyond the claims: the quiz session *)

(** X12. For a valid record the lookup of the correct option in the
    review never raises: it gives the option at the position of the
    answer letter, a for the first to d for the fourth. *)
Theorem correct_option_of_valid (q : dict) :
  valid_record q →
  ∃ opts a i o,
    q !! "options" = Some (VList opts)
    ∧ q !! "answer" = Some (VStr a)
    ∧ ["a"; "b"; "c"; "d"] !! i = Some a
    ∧ opts !! i = Some o
    ∧ correct_option q = inr o.
Proof.
  intros Hv.
  destruct (valid_record_getitem q Hv)
    as (qtext & opts & a & i & _ & Ho & Ha & Hlen & Hi).
  destruct (correct_option_at q opts a i Ho Ha Hlen Hi) as (o & Hoi & Hc).
  exists opts, a, i, o. unfold getitem in Ho, Ha.
  destruct (q !! "options") as [?|]; [|done].
  destruct (q !! "answer") as [?|]; [|done].
  by simplify_eq.
Qed.

Lemma correct_option_of_valid_witness :
  ∃ opts a i o,
    spec_record !! "options" = Some (VList opts)
    ∧ spec_record !! "answer" = Some (VStr a)
    ∧ ["a"; "b"; "c"; "d"] !! i = Some a
    ∧ opts !! i = Some o
    ∧ correct_option spec_record = inr o.
Proof. apply (correct_option_of_valid spec_record), valid_spec_record. Defined.

(** X13. On a quiz of valid records that is not empty, [_show_results]
    raises nothing, whatever the answers of the user: the score is at
    most the number of questions, so that the fraction of the progress bar
    is at most one, and the review has a row for each question that has an
    answer. *)
Theorem show_results_valid (user_answers : list string) (quiz : list dict) :
  Forall valid_record quiz → quiz ≠ [] →
  ∃ r, _show_results user_answers quiz = inr r
       ∧ (correct r ≤ total r)%nat
       ∧ total r = length quiz
       ∧ length (rows r) = (length user_answers `min` length quiz)%nat.
Proof.
  intros Hall Hne. unfold _show_results.
  destruct (score_returns user_answers quiz Hall) as (n & -> & _ & Hn).
  destruct (review_returns user_answers quiz Hall) as (rs & -> & Hlen).
  simpl. destruct quiz as [|q quiz]; [done|]. simpl.
  eexists; split; [done|]. simpl in *. by repeat split.
Qed.

Lemma show_results_valid_witness :
  ∃ r, _show_results ["4"] [spec_record] = inr r
       ∧ (correct r ≤ total r)%nat
       ∧ total r = length [spec_record]
       ∧ length (rows r) = (length ["4"] `min` length [spec_record])%nat.
Proof.
  apply (show_results_valid ["4"] [spec_record]); [|done].
  constructor; [apply valid_spec_record|constructor].
Defined.

(** X14. The score compares the text of the option that the user picked
    with the answer letter of the record: on valid records, answers that
    are none of the texts a, b, c, d score nothing, the text of the
    correct option included. *)
Theorem score_zero_unless_letter (user_answers : list string) (quiz : list dict) :
  Forall valid_record quiz →
  Forall (λ ans, ans ∉ ["a"; "b"; "c"; "d"]) user_answers →
  score user_answers quiz = inr 0%nat.
Proof.
  intros Hall; revert user_answers;
    induction Hall as [|q quiz Hq _ IH]; intros [|ans ua] Hua; simpl; try done.
  apply Forall_cons in Hua as [Hans Hua].
  apply valid_record_getitem in Hq as (? & ? & a & i & _ & _ & -> & _ & Hi).
  rewrite (IH ua Hua). simpl.
  rewrite bool_decide_eq_false_2; [done|].
  intros [= ->]. apply Hans. by eapply list_elem_of_lookup_2.
Qed.

Lemma score_zero_unless_letter_witness :
  score ["4"] [spec_record] = inr 0%nat.
Proof.
  apply (score_zero_unless_letter ["4"] [spec_record]).
  - constructor; [apply valid_spec_record|constructor].
  - constructor; [|constructor].
    repeat (apply not_elem_of_cons; split; [done|]). apply not_elem_of_nil.
Defined.

(** X15. From the initial session, through any runs of the script in
    which the quizzes that arrive are made of valid records, the quiz flow
    raises nothing and keeps the number of the current question between 0
    and the number of questions, with an answer, not empty, recorded for
    every question before it. *)
Theorem session_runs_ok (actions : list action) :
  Forall valid_action actions →
  ∃ s, runs initial_session actions = inr s ∧ session_ok s.
Proof. intros Hall. by apply runs_ok. Qed.

Lemma session_runs_ok_witness :
  ∃ s, runs initial_session
         [GenerateQuiz (Returns (Some [spec_record]));
          Click (Some 1%nat) NextButton; Click None NoButton]
       = inr s ∧ session_ok s.
Proof.
  apply (session_runs_ok
           [GenerateQuiz (Returns (Some [spec_record]));
            Click (Some 1%nat) NextButton; Click None NoButton]).
  repeat constructor. apply valid_spec_record.
Defined.

(** ** Properties beyond the claims: lines and layout *)

Lemma split_text_lines (lines : list string) :
  Forall (λ l, contains "010" l = false) lines → lines ≠ [] →
  Py.split "010" None (text lines) = lines.
Proof.
  induction 1 as [|l lines Hl Hall IH]; [done|]. intros _.
  destruct lines as [|l' lines].
  - by apply split_no_sep.
  - change (text (l :: l' :: lines)) with (l ++ String "010" (text (l' :: lines))).
    rewrite split_app, (split_no_sep _ _ Hl). simpl. f_equal. by apply IH.
Qed.

Lemma clean_lines_of_text (lines : list string) :
  Forall (λ l, contains "010" l = false) lines →
  clean_lines (text lines)
  = map Py.strip (List.filter (λ l, Py.truthy (Py.strip l)) lines).
Proof.
  intros Hall. destruct lines as [|l lines]; [done|].
  unfold clean_lines. by rewrite (split_text_lines _ Hall).
Qed.

(** X16. Indentation, spaces at the end of a line and blank lines do not
    count: two texts whose lines, once trimmed and the blank ones left
    out, are the same get the same result from [parse_quiz], be it a list
    or an exception. *)
Theorem parse_quiz_layout (lines1 lines2 : list string) :
  Forall (λ l, contains "010" l = false) lines1 →
  Forall (λ l, contains "010" l = false) lines2 →
  map Py.strip (List.filter (λ l, Py.truthy (Py.strip l)) lines1)
  = map Py.strip (List.filter (λ l, Py.truthy (Py.strip l)) lines2) →
  parse_quiz (text lines1) = parse_quiz (text lines2).
Proof.
  intros H1 H2 Heq. unfold parse_quiz.
  by rewrite (clean_lines_of_text _ H1), (clean_lines_of_text _ H2), Heq.
Qed.

Lemma parse_quiz_layout_witness :
  parse_quiz (text ["Question 1: Item 1?"; "A) w"; "Answer: C"])
  = parse_quiz (text ["   Question 1: Item 1?  "; ""; "  A) w"; "   ";
                      "Answer: C "]).
Proof.
  apply (parse_quiz_layout
           ["Question 1: Item 1?"; "A) w"; "Answer: C"]
           ["   Question 1: Item 1?  "; ""; "  A) w"; "   "; "Answer: C "]).
  - repeat constructor.
  - repeat constructor.
  - reflexivity.
Defined.

Lemma split_zero (sep : ascii) (s : string) :
  Py.split sep (Some 0%nat) s = [s].
Proof. by destruct s. Qed.

Lemma split_once (sep : ascii) (s t : string) :
  contains sep s = false →
  Py.split sep (Some 1%nat) (s ++ String sep t) = [s; t].
Proof.
  induction s as [|c s IH]; simpl.
  - intros _. by rewrite Ascii.eqb_refl, split_zero.
  - intros [Hc Hs]%orb_false_iff. by rewrite Hc, (IH Hs).
Qed.

Lemma split_once_none (sep : ascii) (s : string) :
  contains sep s = false → Py.split sep (Some 1%nat) s = [s].
Proof.
  induction s as [|c s IH]; simpl; [done|].
  intros [Hc Hs]%orb_false_iff. by rewrite Hc, (IH Hs).
Qed.

(** X17. The question of a record is all that follows the first colon of
    its question line, trimmed: colons further on stay in the question. *)
Theorem question_after_first_colon (st : pstate) (s t : string) :
  contains ":" s = false →
  classify (s ++ String ":" t) = KQuestion →
  step st (s ++ String ":" t)
  = Ok (PState (flush st) (<["question" := VStr (Py.strip t)]> blank_q)).
Proof.
  intros Hs Hk. destruct (step_question st _ Hk) as (seg & Hseg & ->).
  rewrite (split_once _ _ _ Hs) in Hseg. cbv in Hseg. by simplify_eq.
Qed.

Lemma question_after_first_colon_witness :
  step (PState [] ∅) ("Question 1" ++ String ":" " Which: A or B?")
  = Ok (PState (flush (PState [] ∅))
          (<["question" := VStr (Py.strip " Which: A or B?")]> blank_q)).
Proof.
  apply (question_after_first_colon (PState [] ∅) "Question 1"
           " Which: A or B?"); reflexivity.
Defined.

(** X18. A question line without a colon gives its whole text, trimmed
    and with the word that opens it, as the question of the record. *)
Theorem question_without_colon (st : pstate) (line : string) :
  contains ":" line = false →
  classify line = KQuestion →
  step st line
  = Ok (PState (flush st) (<["question" := VStr (Py.strip line)]> blank_q)).
Proof.
  intros Hs Hk. destruct (step_question st _ Hk) as (seg & Hseg & ->).
  rewrite (split_once_none _ _ Hs) in Hseg. cbv in Hseg. by simplify_eq.
Qed.

Lemma question_without_colon_witness :
  step (PState [] ∅) "Question 1. What is 2+2?"
  = Ok (PState (flush (PState [] ∅))
          (<["question" := VStr (Py.strip "Question 1. What is 2+2?")]> blank_q)).
Proof.
  apply (question_without_colon (PState [] ∅) "Question 1. What is 2+2?");
    reflexivity.
Defined.
